(** * Credential cache of the EC2 metadata proxy (credentials.go)

    A shallow embedding of [credentials.go]: the [Credentials] value and its
    expiry predicates, the cached [ContainerCredentials] entry, the
    [CredentialsProvider] with its address-keyed cache, the role assumption
    request it sends to the Security Token Service, and the session name
    generator.

    Conventions of the embedding.
    - A Go [string] is a byte sequence: [string] here, one [ascii] per byte.
    - A [time.Time] is the instant it denotes, counted in nanoseconds on an
      unbounded axis ([Z]); a [time.Duration] is an [int64] count of
      nanoseconds, with Go's wrap-around on negation.
    - A Go function returning [(T, error)] returns a pair whose second
      component is [None] for [nil].
    - A run-time panic is the outcome [Panic]; calls to the outside world
      (the clock, the container service, the STS endpoint) thread a [State]. *)

From Stdlib Require Import ZArith NArith String Ascii List Bool Lia.
From stdpp Require Import base gmap strings.

Local Open Scope string_scope.
Local Open Scope Z_scope.

(** ** The [time] package, as far as the program uses it *)

Module time.

(** An instant: nanoseconds since the zero [Time].  The program compares a
    reading of the wall clock with an expiration sent by the service, which
    has no monotonic part, so the comparison is between instants. *)
Definition Time : Type := Z.

(** [time.Duration] is an [int64] nanosecond count. *)
Definition Duration : Type := Z.

Definition minInt64 : Z := - 2 ^ 63.
Definition maxInt64 : Z := 2 ^ 63 - 1.

Definition inInt64 (d : Z) : Prop := minInt64 <= d <= maxInt64.

(** Two's complement reduction of an integer to [int64]. *)
Definition wrap64 (z : Z) : Z := (z + 2 ^ 63) mod 2 ^ 64 - 2 ^ 63.

(** Unary minus on a [Duration] ([-d] in Go: the minimum wraps to itself). *)
Definition neg (d : Duration) : Duration := wrap64 (- d).

Definition Nanosecond : Duration := 1.
Definition Second : Duration := 1000000000.
Definition Minute : Duration := 60 * Second.

(** [t.After(u)]: the instant [t] is strictly later than [u]. *)
Definition After (t u : Time) : bool := (u <? t)%Z.

(** [t.Add(d)]. *)
Definition Add (t : Time) (d : Duration) : Time := t + d.

End time.

(** ** Role identifiers

    [RoleArn] is declared outside [credentials.go]; the program uses its
    methods [Empty], [Equals] and [String], and its zero value (the field of
    a [Credentials{}] literal).  They are taken as an interface. *)

Class RoleArnOps (RoleArn : Type) : Type := {
  Empty : RoleArn -> bool;
  Equals : RoleArn -> RoleArn -> bool;
  RoleArn_String : RoleArn -> string;
  RoleArn_zero : RoleArn
}.

(** ** Session names *)

Definition maxSessionNameLen : nat := 32.

(** The value of a byte. *)
Definition byteVal (c : ascii) : N := N_of_ascii c.

Definition between (lo hi b : N) : bool := ((lo <=? b) && (b <=? hi))%N.

(** [\w] in Go's regexp syntax: the ASCII class [0-9A-Za-z_]. *)
Definition wordChar (c : ascii) : bool :=
  between 48 57 (byteVal c) || between 65 90 (byteVal c)
  || between 97 122 (byteVal c) || (byteVal c =? 95)%N.

(** The characters listed in the class of [invalidSessionNameRegexp],
    [\w + = , . @ -]: the ones valid in an STS role session name. *)
Definition validSessionNameChar (c : ascii) : bool :=
  wordChar c
  || (byteVal c =? 43)%N || (byteVal c =? 61)%N || (byteVal c =? 44)%N
  || (byteVal c =? 46)%N || (byteVal c =? 64)%N || (byteVal c =? 45)%N.

(** *** UTF-8 decoding ([unicode/utf8]), which the regexp engine steps by

    The engine reads its input one rune at a time: a byte below 0x80 is a
    rune of its own, anything else goes through [utf8.DecodeRuneInString],
    which consumes a whole well-formed sequence or, on ill-formed input, one
    byte (decoded as U+FFFD). *)

(** An entry of [utf8]'s table [first]: the length of the sequence a lead
    byte announces and the range accepted for its second byte; [None] for a
    byte that cannot start a multi-byte sequence. *)
Definition utf8_first (b0 : N) : option (nat * N * N) :=
  if between 194 223 b0 then Some (2%nat, 128, 191)%N
  else if (b0 =? 224)%N then Some (3%nat, 160, 191)%N
  else if between 225 236 b0 then Some (3%nat, 128, 191)%N
  else if (b0 =? 237)%N then Some (3%nat, 128, 159)%N
  else if between 238 239 b0 then Some (3%nat, 128, 191)%N
  else if (b0 =? 240)%N then Some (4%nat, 144, 191)%N
  else if between 241 243 b0 then Some (4%nat, 128, 191)%N
  else if (b0 =? 244)%N then Some (4%nat, 128, 143)%N
  else None.

(** Continuation byte test, [locb <= b <= hicb]. *)
Definition utf8_cont (c : ascii) : bool := between 128 191 (byteVal c).

(** The number of bytes [utf8.DecodeRuneInString] consumes at the head of a
    string that starts with a byte [>= 0x80] (1 on ill-formed input). *)
Definition runeWidth (s : string) : nat :=
  match s with
  | EmptyString => 0%nat
  | String c0 rest =>
    match utf8_first (byteVal c0) with
    | None => 1%nat
    | Some (sz, lo, hi) =>
      if (String.length s <? sz)%nat then 1%nat
      else match rest with
        | EmptyString => 1%nat
        | String c1 rest1 =>
          if negb (between lo hi (byteVal c1)) then 1%nat
          else if (sz <=? 2)%nat then 2%nat
          else match rest1 with
            | EmptyString => 1%nat
            | String c2 rest2 =>
              if negb (utf8_cont c2) then 1%nat
              else if (sz <=? 3)%nat then 3%nat
              else match rest2 with
                | EmptyString => 1%nat
                | String c3 _ =>
                  if negb (utf8_cont c3) then 1%nat else 4%nat
                end
            end
        end
    end
  end.

(** [invalidSessionNameRegexp.ReplaceAllString(s, "_")] for the pattern
    [[^\w+=,.@-]]: every rune outside the listed class becomes one ["_"].
    The listed characters are ASCII, so every rune of two bytes or more, and
    every ill-formed byte, is replaced.  [skip] counts the bytes still to drop
    of a rune that has been replaced already. *)
Fixpoint replaceInvalid (skip : nat) (s : string) : string :=
  match s with
  | EmptyString => EmptyString
  | String c rest =>
    match skip with
    | S k => replaceInvalid k rest
    | O =>
      if (byteVal c <? 128)%N then
        String (if validSessionNameChar c then c else "_"%char)
               (replaceInvalid 0 rest)
      else String "_"%char (replaceInvalid (runeWidth s - 1) rest)
    end
  end.

Definition ReplaceAllString_invalidSessionName (s : string) : string :=
  replaceInvalid 0 s.

(** ** Outcomes: a value, or a run-time panic *)

Inductive Res (A : Type) : Type :=
| Ret (a : A)
| Panic (msg : string).
Arguments Ret {A} a.
Arguments Panic {A} msg.

(** [s[0:n]] on a string: a run-time panic when [n] exceeds the length. *)
Definition slice_to (s : string) (n : nat) : Res string :=
  if (n <=? String.length s)%nat then Ret (substring 0 n s)
  else Panic "slice bounds out of range".

Definition generateSessionName (platform containerId : string) : Res string :=
  let sessionName := platform ++ "-" ++ containerId in
  slice_to (ReplaceAllString_invalidSessionName sessionName) maxSessionNameLen.

(** ** The STS client ([aws-sdk-go/service/sts]), as far as the program uses it *)

(** Go's [error] values: what the program does with one is hand it on. *)
Definition error : Type := string.

(** [sts.AssumeRoleInput]: every field is a pointer, [None] when [nil]. *)
Record AssumeRoleInput : Type := {
  DurationSeconds : option Z;
  Policy : option string;
  Input_RoleArn : option string;
  RoleSessionName : option string
}.

(** The [Credentials] member of [sts.AssumeRoleOutput].  The four fields are
    required in the service's response shape; a response that comes with no
    error carries them. *)
Record AssumeRoleOutput : Type := {
  AccessKeyId : string;
  SecretAccessKey : string;
  SessionToken : string;
  Output_Expiration : time.Time
}.

(** The handle [*sts.STS]: what the remote service answers to a request. *)
Record STS : Type := {
  sts_AssumeRole : AssumeRoleInput -> error + AssumeRoleOutput
}.

Section Provider.

Context {RoleArn : Type} {ops : RoleArnOps RoleArn}.

(** ** Data *)

Record Credentials : Type := {
  AccessKey : string;
  Expiration : time.Time;
  GeneratedAt : time.Time;
  Credentials_RoleArn : RoleArn;
  SecretKey : string;
  Token : string
}.

(** [Credentials{}]. *)
Definition Credentials_zero : Credentials :=
  {| AccessKey := ""; Expiration := 0; GeneratedAt := 0;
     Credentials_RoleArn := RoleArn_zero; SecretKey := ""; Token := "" |}.

(** Modelled from the spec: [ContainerInfo] is declared outside
    [credentials.go].  A container identity is a container's unique id, its
    declared role identifier (possibly empty) and its declared policy
    document (possibly the empty string); these are the fields the program
    reads. *)
Record ContainerInfo : Type := {
  Id : string;
  IamRole : RoleArn;
  IamPolicy : string
}.

(** The interface [ContainerService], declared outside [credentials.go];
    the program calls [ContainerForIP] and [TypeName]. *)
Record ContainerService : Type := {
  ContainerForIP : string -> ContainerInfo * option error;
  TypeName : string
}.

(** The struct embeds a [ContainerInfo] and a [Credentials]. *)
Record ContainerCredentials : Type := {
  cc_ContainerInfo : ContainerInfo;
  cc_Credentials : Credentials
}.

(** The field [lock] holds no data: a call holds the mutex from entry to
    exit, and in this embedding calls run one at a time. *)
Record CredentialsProvider : Type := {
  container : ContainerService;
  awsSts : STS;
  defaultIamRoleArn : RoleArn;
  defaultIamPolicy : string;
  containerCredentials : gmap string ContainerCredentials
}.

(** ** State and effects *)

Record State : Type := {
  (** the provider the receiver points to *)
  self : CredentialsProvider;
  (** the successive readings of [time.Now()] *)
  clock : nat -> time.Time;
  (** how many readings were taken *)
  reads : nat;
  (** the requests sent to the STS endpoint, oldest first *)
  stsCalls : list AssumeRoleInput
}.

Definition M (A : Type) : Type := State -> Res A * State.

Definition ret {A} (a : A) : M A := fun st => (Ret a, st).

Definition bind {A B} (m : M A) (k : A -> M B) : M B :=
  fun st =>
    match m st with
    | (Ret a, st') => k a st'
    | (Panic msg, st') => (Panic msg, st')
    end.

Definition lift {A} (r : Res A) : M A := fun st => (r, st).

Definition get_self : M CredentialsProvider := fun st => (Ret (self st), st).

(** [time.Now()]. *)
Definition time_Now : M time.Time :=
  fun st =>
    (Ret (clock st (reads st)),
     {| self := self st; clock := clock st; reads := S (reads st);
        stsCalls := stsCalls st |}).

(** [self.awsSts.AssumeRole(input)]. *)
Definition awsSts_AssumeRole (input : AssumeRoleInput)
  : M (error + AssumeRoleOutput) :=
  fun st =>
    (Ret (sts_AssumeRole (awsSts (self st)) input),
     {| self := self st; clock := clock st; reads := reads st;
        stsCalls := (stsCalls st ++ [input])%list |}).

(** [self.containerCredentials[key] = value]. *)
Definition containerCredentials_store (key : string)
    (value : ContainerCredentials) : M unit :=
  fun st =>
    (Ret tt,
     {| self :=
          {| container := container (self st);
             awsSts := awsSts (self st);
             defaultIamRoleArn := defaultIamRoleArn (self st);
             defaultIamPolicy := defaultIamPolicy (self st);
             containerCredentials :=
               <[key := value]> (containerCredentials (self st)) |};
        clock := clock st; reads := reads st; stsCalls := stsCalls st |}).

Notation "'do' x <- c1 ;; c2" := (bind c1 (fun x => c2))
  (at level 10, x name, c1 at level 99, c2 at level 200, only parsing).
Notation "'do' ' pat <- c1 ;; c2" :=
  (bind c1 (fun x => match x with pat => c2 end))
  (at level 10, pat pattern, c1 at level 99, c2 at level 200,
   only parsing).

(** ** [Credentials] *)

Definition ExpiredAt (self : Credentials) (at_ : time.Time) : bool :=
  time.After at_ (Expiration self).

Definition ExpiredNow (self : Credentials) : M bool :=
  do now <- time_Now ;;
  ret (ExpiredAt self now).

Definition ExpiresIn (self : Credentials) (d : time.Duration) : M bool :=
  do now <- time_Now ;;
  ret (ExpiredAt self (time.Add now (time.neg d))).

(** ** [ContainerCredentials] *)

(** The conjunction is evaluated left to right and stops at the first
    false operand, so the clock is read only for a matching identity. *)
Definition IsValid (self : ContainerCredentials) (container : ContainerInfo)
  : M bool :=
  if negb (Equals (IamRole (cc_ContainerInfo self)) (IamRole container))
  then ret false
  else if negb (String.eqb (Id (cc_ContainerInfo self)) (Id container))
  then ret false
  else
    do expires <- ExpiresIn (cc_Credentials self) (5 * time.Minute) ;;
    ret (negb expires).

(** ** [CredentialsProvider] *)

Definition AssumeRole (roleArn : RoleArn) (iamPolicy sessionName : string)
  : M (Credentials * option error) :=
  let policy : option string :=
    if (0 <? String.length iamPolicy)%nat then Some iamPolicy else None in
  do r <- awsSts_AssumeRole
         {| DurationSeconds := Some 3600;
            Policy := policy;
            Input_RoleArn := Some (RoleArn_String roleArn);
            RoleSessionName := Some sessionName |} ;;
  match r with
  | inl err => ret (Credentials_zero, Some err)
  | inr resp =>
    do now <- time_Now ;;
    ret ({| AccessKey := AccessKeyId resp;
            SecretKey := SecretAccessKey resp;
            Token := SessionToken resp;
            Expiration := Output_Expiration resp;
            GeneratedAt := now;
            Credentials_RoleArn := RoleArn_zero |}, None)
  end.

Definition CredentialsForIP (containerIP : string)
  : M (Credentials * option error) :=
  do this <- get_self ;;
  let '(container_, err) := ContainerForIP (container this) containerIP in
  match err with
  | Some e => ret (Credentials_zero, Some e)
  | None =>
    (* the body of [if !found || !oldCredentials.IsValid(container)] *)
    let refresh : M (Credentials * option error) :=
      let roleArn := IamRole container_ in
      let iamPolicy := IamPolicy container_ in
      let '(roleArn, iamPolicy) :=
        if Empty roleArn then
          (defaultIamRoleArn this,
           if (String.length iamPolicy =? 0)%nat
           then defaultIamPolicy this else iamPolicy)
        else (roleArn, iamPolicy) in
      do sessionName <-
        lift (generateSessionName (TypeName (container this)) (Id container_)) ;;
      do '(role, err) <- AssumeRole roleArn iamPolicy sessionName ;;
      match err with
      | Some e => ret (Credentials_zero, Some e)
      | None =>
        let oldCredentials :=
          {| cc_ContainerInfo := container_; cc_Credentials := role |} in
        do _ <- containerCredentials_store containerIP oldCredentials ;;
        ret (cc_Credentials oldCredentials, None)
      end in
    match containerCredentials this !! containerIP with
    | None => refresh
    | Some oldCredentials =>
      do valid <- IsValid oldCredentials container_ ;;
      if negb valid then refresh
      else ret (cc_Credentials oldCredentials, None)
    end
  end.

End Provider.

Arguments Credentials : clear implicits.
Arguments ContainerInfo : clear implicits.
Arguments ContainerService : clear implicits.
Arguments ContainerCredentials : clear implicits.
Arguments CredentialsProvider : clear implicits.
Arguments State : clear implicits.
Arguments M : clear implicits.

(** ** The constructor *)

Section Constructor.

Context {RoleArn : Type} {ops : RoleArnOps RoleArn}.

(** [*session.Session] and [sts.New], of the AWS SDK: the client that a
    session gives. *)
Context {Session : Type} (sts_New : Session -> STS).

Definition NewCredentialsProvider (awsSession : Session)
    (container : ContainerService RoleArn) (defaultIamRoleArn : RoleArn)
    (defaultIamPolicy : string) : CredentialsProvider RoleArn :=
  {| container := container;
     awsSts := sts_New awsSession;
     defaultIamRoleArn := defaultIamRoleArn;
     defaultIamPolicy := defaultIamPolicy;
     containerCredentials := ∅ |}.

End Constructor.

(** ** A concrete role identifier, to run the program on inputs

    Modelled from the spec: a role identifier is conceptually an ARN string;
    two identifiers are equal iff their canonical strings match, and the
    empty one means that no role was specified. *)
#[export] Instance StringArn : RoleArnOps string := {|
  Empty := fun r => (String.length r =? 0)%nat;
  Equals := String.eqb;
  RoleArn_String := fun r => r;
  RoleArn_zero := ""
|}.

Module Sample.

Definition containerId : string :=
  "4f2a9c07d1e85b36a0c4e7f19d2b8a65c3f0e1d2a4b6c8e0f1a3b5c7d9e0f2a4".

Definition roleA : string := "arn:aws:iam::123456789012:role/app".
Definition roleB : string := "arn:aws:iam::123456789012:role/batch".
Definition roleDefault : string := "arn:aws:iam::123456789012:role/default".
Definition policyDefault : string := "{default}".

Definition info (role policy : string) : ContainerInfo string :=
  {| Id := containerId; IamRole := role; IamPolicy := policy |}.

(** A container service that knows one address. *)
Definition service (c : ContainerInfo string) : ContainerService string :=
  {| ContainerForIP := fun ip =>
       if String.eqb ip "172.17.0.2" then (c, None)
       else ({| Id := ""; IamRole := ""; IamPolicy := "" |},
             Some "no container found for IP");
     TypeName := "docker" |}.

Definition response (expiration : time.Time) : AssumeRoleOutput :=
  {| AccessKeyId := "AKIA"; SecretAccessKey := "secret";
     SessionToken := "token"; Output_Expiration := expiration |}.

(** An endpoint that grants an hour, and one that refuses. *)
Definition stsGrant (expiration : time.Time) : STS :=
  {| sts_AssumeRole := fun _ => inr (response expiration) |}.
Definition stsDeny : STS :=
  {| sts_AssumeRole := fun _ => inl "AccessDenied" |}.

Definition creds (expiration : time.Time) : Credentials string :=
  {| AccessKey := "OLD"; Expiration := expiration; GeneratedAt := 0;
     Credentials_RoleArn := ""; SecretKey := "old-secret";
     Token := "old-token" |}.

Definition entry (c : ContainerInfo string) (expiration : time.Time)
  : ContainerCredentials string :=
  {| cc_ContainerInfo := c; cc_Credentials := creds expiration |}.

Definition provider (c : ContainerInfo string) (sts : STS)
    (cache : gmap string (ContainerCredentials string))
  : CredentialsProvider string :=
  {| container := service c; awsSts := sts;
     defaultIamRoleArn := roleDefault; defaultIamPolicy := policyDefault;
     containerCredentials := cache |}.

(** A state whose clock reads [now] at every reading. *)
Definition state (p : CredentialsProvider string) (now : time.Time)
  : State string :=
  {| self := p; clock := fun _ => now; reads := 0; stsCalls := [] |}.

Definition ip : string := "172.17.0.2".
Definition now : time.Time := 63900000000 * time.Second.
Definition hour : time.Duration := 3600 * time.Second.

(** The provider resolves [ip] to [c], holds [cache] and reaches an
    endpoint that grants credentials for an hour; the clock reads [now]. *)
Definition granting (c : ContainerInfo string)
    (cache : gmap string (ContainerCredentials string)) : State string :=
  state (provider c (stsGrant (now + hour)) cache) now.

(** The same, with an endpoint that refuses. *)
Definition denying (c : ContainerInfo string)
    (cache : gmap string (ContainerCredentials string)) : State string :=
  state (provider c stsDeny cache) now.

(** The session name of the sample container. *)
Definition name : string := "docker-4f2a9c07d1e85b36a0c4e7f19".

End Sample.

(** ** The specification's wording, to compare the program with *)

Module Spec.

Section Orchestrator.

Context {RoleArn : Type} {ops : RoleArnOps RoleArn}.

(** "treat the set as expiring within [duration] if [now + duration] is
    after the expiration timestamp" *)
Definition expiresWithin (c : Credentials RoleArn) (now : time.Time)
    (d : time.Duration) : bool :=
  time.After (now + d) (Expiration c).

(** "entry exists AND its snapshot's Role Identifier equals the freshly
    resolved identity's role AND its snapshot's container id equals the
    freshly resolved id AND its Credential Set does not expire within a
    5-minute safety margin" *)
Definition entryValid (entry : option (ContainerCredentials RoleArn))
    (resolved : ContainerInfo RoleArn) (now : time.Time) : bool :=
  match entry with
  | None => false
  | Some e =>
    Equals (IamRole (cc_ContainerInfo e)) (IamRole resolved)
    && String.eqb (Id (cc_ContainerInfo e)) (Id resolved)
    && negb (expiresWithin (cc_Credentials e) now (5 * time.Minute))
  end.

(** "the container's declared role if non-empty, else the configured
    default role" *)
Definition effectiveRole (p : CredentialsProvider RoleArn)
    (c : ContainerInfo RoleArn) : RoleArn :=
  if Empty (IamRole c) then defaultIamRoleArn p else IamRole c.

(** "if the container declared no custom role, and the container also
    declared no policy, use the configured default policy; otherwise use
    the container's declared policy" *)
Definition effectivePolicy (p : CredentialsProvider RoleArn)
    (c : ContainerInfo RoleArn) : string :=
  if Empty (IamRole c) && String.eqb (IamPolicy c) ""
  then defaultIamPolicy p else IamPolicy c.

(** The request of section 6: role, optional policy (absent when the
    effective policy is empty), session name, 3600 seconds. *)
Definition request (role : RoleArn) (policy sessionName : string)
  : AssumeRoleInput :=
  {| DurationSeconds := Some 3600;
     Policy := if String.eqb policy "" then None else Some policy;
     Input_RoleArn := Some (RoleArn_String role);
     RoleSessionName := Some sessionName |}.

End Orchestrator.

(** "replace every character that is not a word character, [+], [=], [,],
  [.], [@], or [-] with [_]", one character per byte. *)
Fixpoint sanitize (s : string) : string :=
match s with
| EmptyString => EmptyString
| String c rest =>
  String (if validSessionNameChar c then c else "_"%char) (sanitize rest)
end.

(** "truncate to a fixed maximum length (32)", clamped: "if the sanitized
  string is shorter than 32 characters ... return as-is". *)
Definition sessionName (platform containerId : string) : string :=
let s := ReplaceAllString_invalidSessionName
           (platform ++ "-" ++ containerId) in
substring 0 (Nat.min (String.length s) maxSessionNameLen) s.

End Spec.

(** ** Auxiliary notions used by the statements *)

(** Every byte of the string is below 0x80. *)
Definition isAscii (s : string) : Prop :=
  Forall (fun c => (byteVal c < 128)%N) (list_ascii_of_string s).

(** Every byte of the string is valid in an STS role session name. *)
Definition validSessionName (s : string) : Prop :=
  Forall (fun c => validSessionNameChar c = true) (list_ascii_of_string s).

Section Aux.

Context {RoleArn : Type}.

(** The state after one more reading of the clock. *)
Definition tick (st : State RoleArn) : State RoleArn :=
  {| self := self st; clock := clock st; reads := S (reads st);
     stsCalls := stsCalls st |}.

(** The reading the next [time.Now()] returns. *)
Definition now_of (st : State RoleArn) : time.Time := clock st (reads st).

(** The cache of the provider in a state. *)
Definition cache_of (st : State RoleArn)
  : gmap string (ContainerCredentials RoleArn) :=
  containerCredentials (self st).

End Aux.

(** ** Sequences of calls *)

Section Sequences.

Context {RoleArn : Type} {ops : RoleArnOps RoleArn}.

(** The state after the provider has served the addresses of a list one
    after the other, whatever the outcome of each call. *)
Fixpoint calls (ips : list string) (st : State RoleArn) : State RoleArn :=
  match ips with
  | [] => st
  | ip :: rest => calls rest (snd (CredentialsForIP ip st))
  end.

(** A state in which nothing has happened yet: no request sent, no reading
    of the clock taken. *)
Definition start (p : CredentialsProvider RoleArn) (clock : nat -> time.Time)
  : State RoleArn :=
  {| self := p; clock := clock; reads := 0; stsCalls := [] |}.

(** The [RoleArn] of every cached set is the zero value. *)
Definition cache_unnamed (st : State RoleArn) : Prop :=
  forall ip e,
    cache_of st !! ip = Some e ->
    Credentials_RoleArn (cc_Credentials e) = RoleArn_zero.

End Sequences.

(** A request as the program means to send it: one hour, a role, no empty
    policy document, and a session name of 32 valid bytes. *)
Definition wellFormedRequest (input : AssumeRoleInput) : Prop :=
  DurationSeconds input = Some 3600
  /\ is_Some (Input_RoleArn input)
  /\ Policy input <> Some ""
  /\ exists name, RoleSessionName input = Some name
                  /\ String.length name = 32%nat
                  /\ validSessionName name.

(** ** Proof steps for a call *)

(** Unfold one call down to the primitive effects. *)
Ltac run_call :=
  unfold CredentialsForIP, AssumeRole, IsValid, ExpiresIn, bind, ret, lift,
    get_self, time_Now, awsSts_AssumeRole, containerCredentials_store in *.

(** Split on every test the unfolded call performs. *)
Ltac split_call :=
  repeat match goal with
  | |- context [match ?x with _ => _ end] =>
      lazymatch x with
      | context [match _ with _ => _ end] => fail
      | _ => destruct x eqn:?
      end
  end.

(** * Properties *)

(** ** Durations *)

Lemma neg_in_range (d : time.Duration) :
  time.minInt64 < d <= time.maxInt64 -> time.neg d = - d.
Proof.
  unfold time.neg, time.wrap64, time.minInt64, time.maxInt64. intros Hd.
  rewrite Z.mod_small by lia. lia.
Qed.

Lemma neg_minInt64 : time.neg time.minInt64 = time.minInt64.
Proof. reflexivity. Qed.

Section CredentialsFacts.

Context {RoleArn : Type} {ops : RoleArnOps RoleArn}.

Implicit Types (c : Credentials RoleArn) (st : State RoleArn).

(** ** [ExpiredAt] *)

Lemma ExpiredAt_true c t : ExpiredAt c t = true <-> Expiration c < t.
Proof. unfold ExpiredAt, time.After. apply Z.ltb_lt. Qed.

Lemma ExpiredAt_false c t : ExpiredAt c t = false <-> t <= Expiration c.
Proof. unfold ExpiredAt, time.After. apply Z.ltb_ge. Qed.

(** C9. [ExpiredAt] holds at an instant exactly when the instant is strictly
    after the expiration: it holds any positive amount later, fails any
    positive amount earlier, and fails at the expiration itself. *)
Theorem ExpiredAt_strictly_after c :
  (forall t, ExpiredAt c t = true <-> Expiration c < t)
  /\ (forall eps, 0 < eps ->
        ExpiredAt c (Expiration c + eps) = true
        /\ ExpiredAt c (Expiration c - eps) = false)
  /\ ExpiredAt c (Expiration c) = false.
Proof.
  split; [apply ExpiredAt_true|]. split.
  - intros eps Heps. split.
    + apply ExpiredAt_true. lia.
    + apply ExpiredAt_false. lia.
  - apply ExpiredAt_false. lia.
Qed.

(** ** [ExpiredNow] and [ExpiresIn] *)

Lemma ExpiredNow_run c st :
  ExpiredNow c st = (Ret (ExpiredAt c (now_of st)), tick st).
Proof. reflexivity. Qed.

Lemma ExpiresIn_run c d st :
  ExpiresIn c d st
  = (Ret (ExpiredAt c (time.Add (now_of st) (time.neg d))), tick st).
Proof. reflexivity. Qed.

(** What the program computes: the set counts as expiring within [d] when
    the instant [d] BEFORE now is after the expiration. *)
Lemma ExpiresIn_before_now c d st :
  time.minInt64 < d <= time.maxInt64 ->
  fst (ExpiresIn c d st) = Ret (Expiration c <? now_of st - d).
Proof.
  intros Hd. rewrite ExpiresIn_run. cbn [fst].
  unfold ExpiredAt, time.After, time.Add. rewrite neg_in_range by exact Hd.
  rewrite Z.add_opp_r. reflexivity.
Qed.

(** In the specification's terms, the program answers for the duration
    [-d]. *)
Lemma ExpiresIn_is_expiresWithin_neg c d st :
  fst (ExpiresIn c d st)
  = Ret (Spec.expiresWithin c (now_of st) (time.neg d)).
Proof. reflexivity. Qed.

(** The two agree when the expiration is at least [d] away from now, on
    either side. *)
Lemma ExpiresIn_agrees_outside_window c d st :
  0 <= d <= time.maxInt64 ->
  (Expiration c < now_of st - d \/ now_of st + d <= Expiration c) ->
  fst (ExpiresIn c d st) = Ret (Spec.expiresWithin c (now_of st) d).
Proof.
  intros Hd Hout. rewrite ExpiresIn_before_now
    by (unfold time.minInt64, time.maxInt64 in *; lia).
  unfold Spec.expiresWithin, time.After. f_equal.
  destruct Hout as [H|H].
  - transitivity true; [apply Z.ltb_lt; lia | symmetry; apply Z.ltb_lt; lia].
  - transitivity false; [apply Z.ltb_ge; lia | symmetry; apply Z.ltb_ge; lia].
Qed.

(** ** [AssumeRole] *)

Lemma policy_pointer (iamPolicy : string) :
  (if (0 <? String.length iamPolicy)%nat then Some iamPolicy else None)
  = (if String.eqb iamPolicy "" then None else Some iamPolicy).
Proof. destruct iamPolicy; reflexivity. Qed.

Lemma AssumeRole_stsCalls (roleArn : RoleArn) (iamPolicy name : string) st :
  stsCalls (snd (AssumeRole roleArn iamPolicy name st))
  = (stsCalls st ++ [Spec.request roleArn iamPolicy name])%list.
Proof.
  unfold AssumeRole, Spec.request, bind, awsSts_AssumeRole.
  rewrite policy_pointer.
  destruct (sts_AssumeRole _ _); reflexivity.
Qed.

(** C7. Every call of [AssumeRole] sends exactly one request; it asks for
    3600 seconds, names the role by its canonical string and carries the
    session name; its policy is absent exactly when the policy string is
    empty and is the string itself otherwise. *)
Theorem AssumeRole_request (roleArn : RoleArn) (iamPolicy name : string) st :
  exists input,
    stsCalls (snd (AssumeRole roleArn iamPolicy name st))
    = (stsCalls st ++ [input])%list
    /\ DurationSeconds input = Some 3600
    /\ Input_RoleArn input = Some (RoleArn_String roleArn)
    /\ RoleSessionName input = Some name
    /\ (Policy input = None <-> iamPolicy = "")
    /\ (Policy input
        = if String.eqb iamPolicy "" then None else Some iamPolicy).
Proof.
  exists (Spec.request roleArn iamPolicy name).
  split; [apply AssumeRole_stsCalls|].
  repeat split; try reflexivity; cbn [Policy Spec.request].
  - destruct iamPolicy; [reflexivity | discriminate].
  - intros ->. reflexivity.
Qed.

End CredentialsFacts.

(** ** Session names *)

Lemma substring_0_bytes (n : nat) (s : string) :
  list_ascii_of_string (substring 0 n s) = take n (list_ascii_of_string s).
Proof.
  revert n. induction s as [|c s IH]; intros [|n]; cbn; try reflexivity.
  f_equal. apply IH.
Qed.

Lemma length_bytes (s : string) :
  String.length s = length (list_ascii_of_string s).
Proof. induction s as [|c s IH]; cbn; [reflexivity | f_equal; exact IH]. Qed.

Lemma underscore_valid : validSessionNameChar "_"%char = true.
Proof. reflexivity. Qed.

Lemma replaceInvalid_valid (s : string) :
  forall skip, validSessionName (replaceInvalid skip s).
Proof.
  unfold validSessionName.
  induction s as [|c s IH]; intros skip; [constructor|].
  destruct skip as [|k]; cbn [replaceInvalid]; [|apply IH].
  destruct (byteVal c <? 128)%N; cbn [list_ascii_of_string].
  - constructor; [|apply IH].
    destruct (validSessionNameChar c) eqn:Hc; [exact Hc | reflexivity].
  - constructor; [reflexivity | apply IH].
Qed.

Lemma replaceInvalid_length (s : string) :
  forall skip, (String.length (replaceInvalid skip s) <= String.length s)%nat.
Proof.
  induction s as [|c s IH]; intros skip; [reflexivity|].
  destruct skip as [|k]; cbn [replaceInvalid].
  - destruct (byteVal c <? 128)%N; cbn [String.length]; apply le_n_S, IH.
  - cbn [String.length]. apply Nat.le_le_succ_r, IH.
Qed.

(** On ASCII input the replacement is the per-character substitution of the
    specification, and keeps the length. *)
Lemma replaceInvalid_ascii (s : string) :
  isAscii s -> ReplaceAllString_invalidSessionName s = Spec.sanitize s.
Proof.
  unfold ReplaceAllString_invalidSessionName, isAscii.
  induction s as [|c s IH]; intros Hs; [reflexivity|].
  cbn [list_ascii_of_string] in Hs. apply Forall_cons in Hs as [Hc Hs].
  cbn [replaceInvalid Spec.sanitize].
  apply N.ltb_lt in Hc. rewrite Hc. f_equal. apply IH, Hs.
Qed.

Lemma sanitize_length (s : string) :
  String.length (Spec.sanitize s) = String.length s.
Proof. induction s as [|c s IH]; cbn; [reflexivity | f_equal; exact IH]. Qed.

Lemma slice_to_in_bounds (s : string) (n : nat) :
  (n <= String.length s)%nat -> slice_to s n = Ret (substring 0 n s).
Proof. intros H. unfold slice_to. apply Nat.leb_le in H. rewrite H. reflexivity. Qed.

Lemma slice_to_out_of_bounds (s : string) (n : nat) :
  (String.length s < n)%nat -> slice_to s n = Panic "slice bounds out of range".
Proof.
  intros H. unfold slice_to. apply Nat.leb_gt in H. rewrite H. reflexivity.
Qed.

(** Off the short inputs the program returns the name of the specification:
    the first 32 bytes of the sanitized concatenation, all of them valid. *)
Lemma generateSessionName_long (platform containerId : string) :
  (32 <= String.length
           (ReplaceAllString_invalidSessionName
              (platform ++ "-" ++ containerId)))%nat ->
  exists name,
    generateSessionName platform containerId = Ret name
    /\ name = Spec.sessionName platform containerId
    /\ String.length name = 32%nat
    /\ validSessionName name.
Proof.
  intros Hlen. unfold generateSessionName, Spec.sessionName, maxSessionNameLen.
  set (s := ReplaceAllString_invalidSessionName _) in *.
  exists (substring 0 32 s).
  split; [apply slice_to_in_bounds, Hlen|].
  split; [rewrite Nat.min_r by exact Hlen; reflexivity|].
  split.
  - rewrite length_bytes, substring_0_bytes, length_take, <- length_bytes. lia.
  - unfold validSessionName. rewrite substring_0_bytes.
    apply Forall_take, replaceInvalid_valid.
Qed.

(** The name of the specification is always at most 32 bytes long and
    valid. *)
Lemma Spec_sessionName_bounded (platform containerId : string) :
  (String.length (Spec.sessionName platform containerId) <= 32)%nat
  /\ validSessionName (Spec.sessionName platform containerId).
Proof.
  unfold Spec.sessionName, maxSessionNameLen.
  set (s := ReplaceAllString_invalidSessionName _). split.
  - rewrite length_bytes, substring_0_bytes, length_take. lia.
  - unfold validSessionName. rewrite substring_0_bytes.
    apply Forall_take, replaceInvalid_valid.
Qed.

(** C5. Whenever the sanitized concatenation of the platform tag, a dash and
    the container id is shorter than 32 bytes, the slice [[0:32]] is out of
    bounds and [generateSessionName] panics instead of returning. *)
Theorem generateSessionName_short_panics (platform containerId : string) :
  (String.length
     (ReplaceAllString_invalidSessionName (platform ++ "-" ++ containerId))
   < 32)%nat ->
  generateSessionName platform containerId = Panic "slice bounds out of range".
Proof. intros Hlen. apply slice_to_out_of_bounds, Hlen. Qed.

(** Such inputs exist: the platform tag [docker] and the container id
    [abc]. *)
Lemma generateSessionName_short_panics_witness :
  exists platform containerId : string,
    (String.length
       (ReplaceAllString_invalidSessionName (platform ++ "-" ++ containerId))
     < 32)%nat
    /\ generateSessionName platform containerId
       = Panic "slice bounds out of range".
Proof.
  exists "docker", "abc".
  assert (H : (String.length
                 (ReplaceAllString_invalidSessionName ("docker" ++ "-" ++ "abc"))
               < 32)%nat) by (vm_compute; lia).
  split; [exact H | exact (generateSessionName_short_panics "docker" "abc" H)].
Defined.

(** C6. For the platform tag [docker] and the container id [abc] the
    specified session name is [docker-abc], ten valid characters; the program
    returns no name there: it panics on the slice. *)
Theorem generateSessionName_docker_abc :
  generateSessionName "docker" "abc" = Panic "slice bounds out of range"
  /\ Spec.sessionName "docker" "abc" = "docker-abc"
  /\ Spec.sanitize ("docker" ++ "-" ++ "abc") = "docker-abc".
Proof. repeat split. Qed.

(** ** [CredentialsForIP] *)

Section ProviderFacts.

Context {RoleArn : Type} {ops : RoleArnOps RoleArn}.

Implicit Types (st : State RoleArn) (ip : string)
  (c : ContainerInfo RoleArn) (e : ContainerCredentials RoleArn).

(** C10. A call for the address [ip] leaves every cache entry of another
    address as it was, and never changes the default role, the default
    policy, the container service or the STS handle: of the provider, it
    changes at most the cache entry of [ip]. *)
Theorem CredentialsForIP_frame ip st :
  (forall ip', ip' <> ip ->
     cache_of (snd (CredentialsForIP ip st)) !! ip' = cache_of st !! ip')
  /\ defaultIamRoleArn (self (snd (CredentialsForIP ip st)))
     = defaultIamRoleArn (self st)
  /\ defaultIamPolicy (self (snd (CredentialsForIP ip st)))
     = defaultIamPolicy (self st)
  /\ container (self (snd (CredentialsForIP ip st))) = container (self st)
  /\ awsSts (self (snd (CredentialsForIP ip st))) = awsSts (self st)
  /\ (self (snd (CredentialsForIP ip st)) = self st
      \/ exists entry,
           cache_of (snd (CredentialsForIP ip st))
           = <[ip := entry]> (cache_of st)).
Proof.
  unfold cache_of. run_call. split_call; cbn.
  all: repeat split; auto.
  all: try (intros ip' Hne; rewrite lookup_insert_ne by congruence; reflexivity).
  all: try (right; eexists; reflexivity).
Qed.

(** *** The validity test *)

Lemma IsValid_run e c st :
  IsValid e c st
  = if Equals (IamRole (cc_ContainerInfo e)) (IamRole c)
       && String.eqb (Id (cc_ContainerInfo e)) (Id c)
    then (Ret (negb (ExpiredAt (cc_Credentials e)
                       (time.Add (now_of st) (time.neg (5 * time.Minute))))),
          tick st)
    else (Ret false, st).
Proof.
  unfold IsValid.
  destruct (Equals _ _); [|reflexivity].
  destruct (String.eqb _ _); reflexivity.
Qed.

(** The program's test: same role, same id, and the expiration is not
    before the instant five minutes BEFORE now. *)
Lemma IsValid_true e c st :
  fst (IsValid e c st) = Ret true
  <-> Equals (IamRole (cc_ContainerInfo e)) (IamRole c) = true
      /\ Id (cc_ContainerInfo e) = Id c
      /\ now_of st - 5 * time.Minute <= Expiration (cc_Credentials e).
Proof.
  rewrite IsValid_run.
  destruct (Equals _ _); cbn [andb].
  2: { split; [discriminate | intros [? _]; discriminate]. }
  destruct (String.eqb_spec (Id (cc_ContainerInfo e)) (Id c)) as [Hid|Hid].
  2: { split; [discriminate | intros (_ & ? & _); contradiction]. }
  cbn [fst]. split.
  - intros H. injection H as H. apply negb_true_iff, ExpiredAt_false in H.
    unfold time.Add in H. change (time.neg (5 * time.Minute))
      with (- (5 * time.Minute)) in H. repeat split; [exact Hid | lia].
  - intros (_ & _ & H). f_equal. apply negb_true_iff, ExpiredAt_false.
    unfold time.Add. change (time.neg (5 * time.Minute))
      with (- (5 * time.Minute)). lia.
Qed.

(** A changed role makes the test fail, whatever the clock says. *)
Lemma IsValid_role_changed e c st :
  Equals (IamRole (cc_ContainerInfo e)) (IamRole c) = false ->
  IsValid e c st = (Ret false, st).
Proof. intros H. rewrite IsValid_run, H. reflexivity. Qed.

(** *** Reuse and refresh *)

(** A cached entry that passes the test is returned as it is: no request
    is sent and the provider is unchanged. *)
Lemma CredentialsForIP_reuses ip st c e :
  ContainerForIP (container (self st)) ip = (c, None) ->
  cache_of st !! ip = Some e ->
  fst (IsValid e c st) = Ret true ->
  CredentialsForIP ip st = (Ret (cc_Credentials e, None), tick st).
Proof.
  unfold cache_of. intros Hres Hentry Hvalid.
  unfold CredentialsForIP, bind, get_self. rewrite Hres, Hentry.
  rewrite IsValid_run in Hvalid |- *.
  destruct (_ && _); [|discriminate].
  cbn [fst] in Hvalid. injection Hvalid as ->. reflexivity.
Qed.

(** A missing entry, or one that fails the test, makes the call send one
    request, provided the session name can be cut: the request names the
    container's role, or the default role if that is empty, and carries the
    container's policy, or the default policy if role and policy are both
    empty. *)
Lemma CredentialsForIP_refreshes ip st c name :
  ContainerForIP (container (self st)) ip = (c, None) ->
  (cache_of st !! ip = None
   \/ exists e, cache_of st !! ip = Some e
                /\ fst (IsValid e c st) = Ret false) ->
  generateSessionName (TypeName (container (self st))) (Id c) = Ret name ->
  stsCalls (snd (CredentialsForIP ip st))
  = (stsCalls st
     ++ [Spec.request (Spec.effectiveRole (self st) c)
           (Spec.effectivePolicy (self st) c) name])%list.
Proof.
  unfold cache_of. intros Hres Hstale Hname.
  unfold Spec.effectiveRole, Spec.effectivePolicy, Spec.request.
  destruct Hstale as [Hmiss | (e & Hentry & Hinvalid)]; run_call.
  - rewrite Hres, Hmiss, Hname.
    destruct (Empty (IamRole c)), (IamPolicy c),
      (defaultIamPolicy (self st)); cbn.
    all: destruct (sts_AssumeRole _ _); reflexivity.
  - rewrite Hres, Hentry.
    destruct (negb (Equals _ _)); [|destruct (negb (String.eqb _ _))].
    3: { cbn in Hinvalid. injection Hinvalid as Hinvalid.
         rewrite Hinvalid. cbn [negb]. cbv beta iota. rewrite Hname.
         destruct (Empty (IamRole c)), (IamPolicy c),
           (defaultIamPolicy (self st)); cbn.
         all: destruct (sts_AssumeRole _ _); reflexivity. }
    all: cbn [negb]; cbv beta iota; rewrite Hname.
    all: destruct (Empty (IamRole c)), (IamPolicy c),
           (defaultIamPolicy (self st)); cbn.
    all: destruct (sts_AssumeRole _ _); reflexivity.
Qed.

Lemma IsValid_returns e c st :
  fst (IsValid e c st) = Ret true \/ fst (IsValid e c st) = Ret false.
Proof.
  rewrite IsValid_run. destruct (_ && _); [|right; reflexivity].
  cbn [fst]. destruct (negb _); [left | right]; reflexivity.
Qed.

(** With a changed role the cached set is not reused: a request for the
    newly resolved identity is sent. *)
Lemma CredentialsForIP_role_changed ip st c e name :
  ContainerForIP (container (self st)) ip = (c, None) ->
  cache_of st !! ip = Some e ->
  Equals (IamRole (cc_ContainerInfo e)) (IamRole c) = false ->
  generateSessionName (TypeName (container (self st))) (Id c) = Ret name ->
  stsCalls (snd (CredentialsForIP ip st))
  = (stsCalls st
     ++ [Spec.request (Spec.effectiveRole (self st) c)
           (Spec.effectivePolicy (self st) c) name])%list.
Proof.
  intros Hres Hentry Hrole Hname.
  apply CredentialsForIP_refreshes; [exact Hres | | exact Hname].
  right. exists e. split; [exact Hentry|].
  rewrite IsValid_role_changed by exact Hrole. reflexivity.
Qed.

(** C3. On a refresh the request names the container's declared role when
    that is not empty and the default role otherwise; it carries the default
    policy when the declared role and the declared policy are both empty,
    the container's own policy when the declared role is empty and the
    declared policy is not, and the declared policy as it is when the
    declared role is not empty. *)
Theorem refresh_effective_role_and_policy ip st c name :
  ContainerForIP (container (self st)) ip = (c, None) ->
  (cache_of st !! ip = None
   \/ exists e, cache_of st !! ip = Some e
                /\ fst (IsValid e c st) = Ret false) ->
  generateSessionName (TypeName (container (self st))) (Id c) = Ret name ->
  exists role policy,
    stsCalls (snd (CredentialsForIP ip st))
    = (stsCalls st ++ [Spec.request role policy name])%list
    /\ (Empty (IamRole c) = false -> role = IamRole c)
    /\ (Empty (IamRole c) = true -> role = defaultIamRoleArn (self st))
    /\ (Empty (IamRole c) = true -> IamPolicy c = "" ->
        policy = defaultIamPolicy (self st))
    /\ (Empty (IamRole c) = true -> IamPolicy c <> "" ->
        policy = IamPolicy c)
    /\ (Empty (IamRole c) = false -> policy = IamPolicy c).
Proof.
  intros Hres Hstale Hname.
  exists (Spec.effectiveRole (self st) c), (Spec.effectivePolicy (self st) c).
  split; [apply CredentialsForIP_refreshes; assumption|].
  unfold Spec.effectiveRole, Spec.effectivePolicy.
  repeat split; intros Hrole; rewrite Hrole; try reflexivity; cbn [andb].
  - intros ->. reflexivity.
  - intros Hpolicy. apply String.eqb_neq in Hpolicy. rewrite Hpolicy.
    reflexivity.
Qed.

Lemma no_call_no_request (l : list AssumeRoleInput) input :
  l = (l ++ [input])%list -> False.
Proof.
  intros H. apply (f_equal length) in H. rewrite length_app in H.
  cbn in H. lia.
Qed.

Lemma one_call_one_request (l : list AssumeRoleInput) input input' :
  (l ++ [input])%list = (l ++ [input'])%list -> input = input'.
Proof. intros H. apply app_inv_head in H. congruence. Qed.

(** C4. When the container service fails for the address, the call returns
    that very error with zero credentials and changes nothing at all; when
    the request sent to the STS endpoint is answered by an error, the call
    returns that very error with zero credentials and the provider, its
    cache included, is as before; and whatever error a call returns, the
    provider is as before. *)
Theorem CredentialsForIP_failure_keeps_cache ip st :
  (forall c err,
     ContainerForIP (container (self st)) ip = (c, Some err) ->
     CredentialsForIP ip st = (Ret (Credentials_zero, Some err), st))
  /\ (forall input err,
        stsCalls (snd (CredentialsForIP ip st))
        = (stsCalls st ++ [input])%list ->
        sts_AssumeRole (awsSts (self st)) input = inl err ->
        fst (CredentialsForIP ip st) = Ret (Credentials_zero, Some err)
        /\ self (snd (CredentialsForIP ip st)) = self st)
  /\ (forall creds err,
        fst (CredentialsForIP ip st) = Ret (creds, Some err) ->
        creds = Credentials_zero
        /\ self (snd (CredentialsForIP ip st)) = self st).
Proof.
  split; [|split].
  - intros c err Hres. run_call. rewrite Hres. reflexivity.
  - intros input err. run_call. split_call; cbn in *; intros Hcalls Hsts.
    all: try (exfalso; exact (no_call_no_request _ _ Hcalls)).
    all: apply one_call_one_request in Hcalls; subst input.
    all: split; congruence.
  - intros creds err. run_call. split_call; cbn; intros Hret.
    all: try discriminate.
    all: split; congruence.
Qed.

(** A call never replaces the collaborators, nor the clock. *)
Lemma CredentialsForIP_keeps_handles ip st :
  container (self (snd (CredentialsForIP ip st))) = container (self st)
  /\ awsSts (self (snd (CredentialsForIP ip st))) = awsSts (self st)
  /\ clock (snd (CredentialsForIP ip st)) = clock st.
Proof. run_call. split_call; cbn; repeat split. Qed.

(** A refresh that the endpoint grants returns the credentials of the
    response and stores them, with the resolved identity, under the
    address. *)
Lemma CredentialsForIP_refresh_stores ip st c name resp :
  ContainerForIP (container (self st)) ip = (c, None) ->
  (cache_of st !! ip = None
   \/ exists e, cache_of st !! ip = Some e
                /\ fst (IsValid e c st) = Ret false) ->
  generateSessionName (TypeName (container (self st))) (Id c) = Ret name ->
  sts_AssumeRole (awsSts (self st))
    (Spec.request (Spec.effectiveRole (self st) c)
       (Spec.effectivePolicy (self st) c) name) = inr resp ->
  exists creds,
    fst (CredentialsForIP ip st) = Ret (creds, None)
    /\ cache_of (snd (CredentialsForIP ip st))
       = <[ip := {| cc_ContainerInfo := c; cc_Credentials := creds |}]>
           (cache_of st)
    /\ AccessKey creds = AccessKeyId resp
    /\ SecretKey creds = SecretAccessKey resp
    /\ Token creds = SessionToken resp
    /\ Expiration creds = Output_Expiration resp.
Proof.
  unfold cache_of. intros Hres Hstale Hname.
  unfold Spec.effectiveRole, Spec.effectivePolicy, Spec.request.
  destruct Hstale as [Hmiss | (e & Hentry & Hinvalid)]; run_call.
  - rewrite Hres, Hmiss, Hname.
    destruct (Empty (IamRole c)), (IamPolicy c),
      (defaultIamPolicy (self st)); cbn; intros Hsts; rewrite Hsts.
    all: eexists; repeat split.
  - rewrite Hres, Hentry.
    destruct (negb (Equals _ _)); [|destruct (negb (String.eqb _ _))].
    3: { cbn in Hinvalid. injection Hinvalid as Hinvalid.
         rewrite Hinvalid. cbn [negb]. cbv beta iota. rewrite Hname.
         destruct (Empty (IamRole c)), (IamPolicy c),
           (defaultIamPolicy (self st)); cbn; intros Hsts; rewrite Hsts.
         all: eexists; repeat split. }
    all: cbn [negb]; cbv beta iota; rewrite Hname.
    all: destruct (Empty (IamRole c)), (IamPolicy c),
           (defaultIamPolicy (self st)); cbn; intros Hsts; rewrite Hsts.
    all: eexists; repeat split.
Qed.

(** The next call for the address, with the identity unchanged and the
    clock not yet five minutes past the expiration, returns the stored set
    and sends no request. *)
Lemma CredentialsForIP_again_reuses ip st c name resp :
  ContainerForIP (container (self st)) ip = (c, None) ->
  (cache_of st !! ip = None
   \/ exists e, cache_of st !! ip = Some e
                /\ fst (IsValid e c st) = Ret false) ->
  generateSessionName (TypeName (container (self st))) (Id c) = Ret name ->
  sts_AssumeRole (awsSts (self st))
    (Spec.request (Spec.effectiveRole (self st) c)
       (Spec.effectivePolicy (self st) c) name) = inr resp ->
  Equals (IamRole c) (IamRole c) = true ->
  now_of (snd (CredentialsForIP ip st)) - 5 * time.Minute
  <= Output_Expiration resp ->
  fst (CredentialsForIP ip (snd (CredentialsForIP ip st)))
  = fst (CredentialsForIP ip st)
  /\ stsCalls (snd (CredentialsForIP ip (snd (CredentialsForIP ip st))))
     = stsCalls (snd (CredentialsForIP ip st)).
Proof.
  intros Hres Hstale Hname Hsts Hrefl Hfresh.
  destruct (CredentialsForIP_refresh_stores ip st c name resp)
    as (creds & Hret & Hcache & _ & _ & _ & Hexp); try assumption.
  destruct (CredentialsForIP_keeps_handles ip st) as (Hcontainer & _ & _).
  set (st1 := snd (CredentialsForIP ip st)) in *.
  assert (Hreuse : CredentialsForIP ip st1 = (Ret (creds, None), tick st1)).
  { apply (CredentialsForIP_reuses ip st1 c
             {| cc_ContainerInfo := c; cc_Credentials := creds |}).
    - rewrite Hcontainer. exact Hres.
    - rewrite Hcache. apply lookup_insert_eq.
    - apply IsValid_true. cbn [cc_ContainerInfo cc_Credentials].
      rewrite Hexp. repeat split; assumption. }
  rewrite Hreuse, Hret. split; reflexivity.
Qed.

(** With the identity resolved and the session name cut, the call sends
    no request exactly when the address has an entry that passes the
    program's test. *)
Lemma CredentialsForIP_reuse_iff ip st c name :
  ContainerForIP (container (self st)) ip = (c, None) ->
  generateSessionName (TypeName (container (self st))) (Id c) = Ret name ->
  stsCalls (snd (CredentialsForIP ip st)) = stsCalls st
  <-> exists e, cache_of st !! ip = Some e
                /\ fst (IsValid e c st) = Ret true.
Proof.
  intros Hres Hname. split.
  - intros Hcalls. destruct (cache_of st !! ip) as [e|] eqn:Hentry.
    + exists e. split; [reflexivity|].
      destruct (IsValid_returns e c st) as [Hv|Hv]; [exact Hv|].
      exfalso. rewrite (CredentialsForIP_refreshes ip st c name) in Hcalls;
        [|assumption|right; exists e; split; assumption|assumption].
      symmetry in Hcalls. exact (no_call_no_request _ _ Hcalls).
    + exfalso. rewrite (CredentialsForIP_refreshes ip st c name) in Hcalls;
        [|assumption|left; assumption|assumption].
      symmetry in Hcalls. exact (no_call_no_request _ _ Hcalls).
  - intros (e & Hentry & Hvalid).
    rewrite (CredentialsForIP_reuses ip st c e) by assumption. reflexivity.
Qed.

End ProviderFacts.

(** * The program on concrete inputs *)

Module Runs.

Import Sample.

Lemma name_cut :
  generateSessionName "docker" containerId = Ret name.
Proof. reflexivity. Qed.

(** C1. Credentials that expire 100 seconds from now expire within five
    minutes in the specification's sense ([now + d] is after the
    expiration), yet [ExpiresIn] answers false for them: it compares the
    instant five minutes before now with the expiration. *)
Theorem ExpiresIn_misses_near_expiry :
  Spec.expiresWithin (creds (now + 100 * time.Second))
    (now_of (granting (info roleA "") ∅)) (5 * time.Minute) = true
  /\ fst (ExpiresIn (creds (now + 100 * time.Second)) (5 * time.Minute)
            (granting (info roleA "") ∅))
     = Ret false.
Proof. split; reflexivity. Qed.

(** The statement of the specification fails for the program. *)
Lemma ExpiresIn_not_expiresWithin :
  ~ (forall (c : Credentials string) (d : time.Duration) (st : State string),
       time.inInt64 d ->
       fst (ExpiresIn c d st) = Ret true
       <-> time.After (time.Add (now_of st) d) (Expiration c) = true).
Proof.
  intros H.
  specialize (H (creds (now + 100 * time.Second)) (5 * time.Minute)
                (granting (info roleA "") ∅)).
  assert (Hd : time.inInt64 (5 * time.Minute)) by (split; discriminate).
  destruct (H Hd) as [_ Hback]. specialize (Hback eq_refl). discriminate.
Qed.

(** C2. The cache holds, for the resolved role and container id, a set that
    expires in one minute, or one that expired a minute ago.  By the
    validity test of the specification neither entry is valid; the program
    returns both from the cache and sends no request. *)
Theorem CredentialsForIP_reuses_entry_inside_margin :
  forall expiration,
    expiration = now + 60 * time.Second
    \/ expiration = now - 60 * time.Second ->
    let c := info roleA "" in
    let st := granting c {[ ip := entry c expiration ]} in
    Spec.entryValid (cache_of st !! ip) c (now_of st) = false
    /\ fst (CredentialsForIP ip st) = Ret (creds expiration, None)
    /\ stsCalls (snd (CredentialsForIP ip st)) = [].
Proof. intros expiration [-> | ->]; repeat split. Qed.

Lemma CredentialsForIP_reuses_entry_inside_margin_witness :
  Spec.entryValid
    (cache_of (granting (info roleA "")
                 {[ ip := entry (info roleA "") (now - 60 * time.Second) ]})
     !! ip) (info roleA "") now = false
  /\ fst (CredentialsForIP ip
            (granting (info roleA "")
               {[ ip := entry (info roleA "") (now - 60 * time.Second) ]}))
     = Ret (creds (now - 60 * time.Second), None).
Proof.
  destruct (CredentialsForIP_reuses_entry_inside_margin
              (now - 60 * time.Second) (or_intror eq_refl)) as (H1 & H2 & _).
  split; [exact H1 | exact H2].
Defined.

(** A changed role, by contrast, is refreshed for the new role. *)
Example role_change_is_refreshed :
  stsCalls (snd (CredentialsForIP ip
                   (granting (info roleB "")
                      {[ ip := entry (info roleA "") (now + hour) ]})))
  = [Spec.request roleB "" name].
Proof.
  rewrite (CredentialsForIP_role_changed ip _ (info roleB "")
             (entry (info roleA "") (now + hour)) name) by reflexivity.
  reflexivity.
Qed.

(** ** Instances of the general statements *)

Lemma ExpiredAt_strictly_after_witness :
  ExpiredAt (creds now) (now + time.Nanosecond) = true
  /\ ExpiredAt (creds now) (now - time.Nanosecond) = false
  /\ ExpiredAt (creds now) now = false.
Proof.
  destruct (ExpiredAt_strictly_after (creds now)) as (_ & Heps & Hat).
  destruct (Heps time.Nanosecond ltac:(reflexivity)) as [Hlater Hearlier].
  split; [exact Hlater | split; [exact Hearlier | exact Hat]].
Defined.

Lemma refresh_effective_role_and_policy_witness :
  exists role policy,
    stsCalls (snd (CredentialsForIP ip (granting (info "" "{own}") ∅)))
    = [Spec.request role policy name]
    /\ role = roleDefault /\ policy = "{own}".
Proof.
  destruct (refresh_effective_role_and_policy ip
              (granting (info "" "{own}") ∅) (info "" "{own}") name)
    as (role & policy & Hcalls & _ & Hrole & _ & Hpolicy & _);
    [reflexivity | left; reflexivity | reflexivity |].
  exists role, policy. split; [exact Hcalls|].
  split; [apply Hrole; reflexivity | apply Hpolicy; [reflexivity | discriminate]].
Defined.

Lemma CredentialsForIP_failure_keeps_cache_witness :
  CredentialsForIP "10.0.0.1" (granting (info roleA "") ∅)
  = (Ret (Credentials_zero, Some "no container found for IP"),
     granting (info roleA "") ∅)
  /\ fst (CredentialsForIP ip
            (denying (info roleA "") {[ ip := entry (info roleB "") now ]}))
     = Ret (Credentials_zero, Some "AccessDenied")
  /\ self (snd (CredentialsForIP ip
                  (denying (info roleA "")
                     {[ ip := entry (info roleB "") now ]})))
     = self (denying (info roleA "") {[ ip := entry (info roleB "") now ]}).
Proof.
  split.
  - exact (proj1 (CredentialsForIP_failure_keeps_cache "10.0.0.1"
                    (granting (info roleA "") ∅)) _ _ eq_refl).
  - exact (proj1 (proj2 (CredentialsForIP_failure_keeps_cache ip
                    (denying (info roleA "")
                       {[ ip := entry (info roleB "") now ]})))
             (Spec.request roleA "" name) "AccessDenied" eq_refl eq_refl).
Defined.

Lemma CredentialsForIP_frame_witness :
  cache_of (snd (CredentialsForIP ip
                   (granting (info roleA "")
                      {[ "172.17.0.3" := entry (info roleB "") now ]})))
    !! "172.17.0.3"
  = Some (entry (info roleB "") now).
Proof.
  rewrite (proj1 (CredentialsForIP_frame ip
                    (granting (info roleA "")
                       {[ "172.17.0.3" := entry (info roleB "") now ]}))
             "172.17.0.3" ltac:(discriminate)).
  reflexivity.
Defined.

End Runs.

(** * Further properties of the program *)

(** ** Expiry predicates *)

Section ExpiryFacts.

Context {RoleArn : Type} {ops : RoleArnOps RoleArn}.

Implicit Types (c : Credentials RoleArn) (st : State RoleArn).

(** X1. Expiry is permanent: credentials expired at an instant are expired
    at every later instant, and credentials not expired at an instant were
    not expired at any earlier one. *)
Theorem ExpiredAt_monotone c (t t' : time.Time) :
  t <= t' ->
  (ExpiredAt c t = true -> ExpiredAt c t' = true)
  /\ (ExpiredAt c t' = false -> ExpiredAt c t = false).
Proof.
  intros Hle. split.
  - intros H. apply ExpiredAt_true in H. apply ExpiredAt_true. lia.
  - intros H. apply ExpiredAt_false in H. apply ExpiredAt_false. lia.
Qed.

(** X2. [ExpiresIn(d)] reads the clock once and answers true exactly when
    the expiration lies more than [d] before that reading. *)
Theorem ExpiresIn_expired_longer_ago c (d : time.Duration) st :
  time.minInt64 < d <= time.maxInt64 ->
  snd (ExpiresIn c d st) = tick st
  /\ (fst (ExpiresIn c d st) = Ret true <-> Expiration c + d < now_of st)
  /\ (fst (ExpiresIn c d st) = Ret false <-> now_of st <= Expiration c + d).
Proof.
  intros Hd. split; [reflexivity|].
  rewrite ExpiresIn_before_now by exact Hd.
  destruct (Z.ltb_spec (Expiration c) (now_of st - d)) as [H|H]; split; split;
    intros H'; try discriminate; try reflexivity; lia.
Qed.

(** X3. [ExpiredNow] is [ExpiresIn] of no time at all, and for a duration
    that is not negative [ExpiresIn] holds only of credentials that
    [ExpiredNow] already reports as expired. *)
Theorem ExpiresIn_implies_ExpiredNow c (d : time.Duration) st :
  0 <= d <= time.maxInt64 ->
  ExpiresIn c 0 st = ExpiredNow c st
  /\ (fst (ExpiresIn c d st) = Ret true -> fst (ExpiredNow c st) = Ret true).
Proof.
  intros Hd. split.
  - rewrite ExpiresIn_run, ExpiredNow_run. unfold time.Add.
    change (time.neg 0) with 0. rewrite Z.add_0_r. reflexivity.
  - rewrite ExpiresIn_before_now
      by (unfold time.minInt64, time.maxInt64 in *; lia).
    rewrite ExpiredNow_run. cbn [fst]. intros H. injection H as H.
    apply Z.ltb_lt in H. f_equal. apply ExpiredAt_true. lia.
Qed.

End ExpiryFacts.

(** ** Session names *)

Lemma bytes_append (a b : string) :
  list_ascii_of_string (a ++ b)
  = (list_ascii_of_string a ++ list_ascii_of_string b)%list.
Proof.
  induction a as [|ch a IH]; [reflexivity|].
  change (String ch a ++ b) with (String ch (a ++ b)).
  cbn [list_ascii_of_string]. rewrite IH. reflexivity.
Qed.

Lemma bytes_inj (a b : string) :
  list_ascii_of_string a = list_ascii_of_string b -> a = b.
Proof.
  intros H. rewrite <- (string_of_list_ascii_of_string a),
    <- (string_of_list_ascii_of_string b), H. reflexivity.
Qed.

Lemma length_append (a b : string) :
  String.length (a ++ b) = (String.length a + String.length b)%nat.
Proof. rewrite !length_bytes, bytes_append. apply length_app. Qed.

Lemma sanitize_bytes (s : string) :
  list_ascii_of_string (Spec.sanitize s)
  = map (fun ch => if validSessionNameChar ch then ch else "_"%char)
      (list_ascii_of_string s).
Proof. induction s as [|ch s IH]; cbn; [reflexivity | f_equal; exact IH]. Qed.

Lemma valid_char_is_ascii (ch : ascii) :
  validSessionNameChar ch = true -> (byteVal ch < 128)%N.
Proof.
  destruct ch as [[] [] [] [] [] [] [] []]; vm_compute;
    first [reflexivity | discriminate].
Qed.

Lemma valid_name_is_ascii (s : string) : validSessionName s -> isAscii s.
Proof.
  unfold validSessionName, isAscii. intros H.
  eapply Forall_impl; [exact H | intros ch; apply valid_char_is_ascii].
Qed.

Lemma isAscii_concat (platform containerId : string) :
  isAscii platform -> isAscii containerId ->
  isAscii (platform ++ "-" ++ containerId).
Proof.
  unfold isAscii. intros Hp Hc. rewrite !bytes_append.
  apply Forall_app. split; [exact Hp|].
  apply Forall_app. split; [|exact Hc].
  constructor; [reflexivity | constructor].
Qed.

(** X4. [generateSessionName] returns exactly when the sanitized
    concatenation has at least 32 bytes, and what it returns is always 32
    bytes long, made of characters valid in a session name, and the head of
    the sanitized concatenation. *)
Theorem generateSessionName_returns_iff (platform containerId : string) :
  ((exists name, generateSessionName platform containerId = Ret name)
   <-> (32 <= String.length
                (ReplaceAllString_invalidSessionName
                   (platform ++ "-" ++ containerId)))%nat)
  /\ (forall name,
        generateSessionName platform containerId = Ret name ->
        String.length name = 32%nat
        /\ validSessionName name
        /\ list_ascii_of_string name
           = take 32 (list_ascii_of_string
                        (ReplaceAllString_invalidSessionName
                           (platform ++ "-" ++ containerId)))).
Proof.
  unfold generateSessionName, maxSessionNameLen, slice_to.
  set (s := ReplaceAllString_invalidSessionName _).
  destruct (Nat.leb_spec 32 (String.length s)) as [Hlen|Hlen].
  - split; [split; [intros _; exact Hlen | intros _; eexists; reflexivity]|].
    intros name Hname. injection Hname as <-. split; [|split].
    + rewrite length_bytes, substring_0_bytes, length_take, <- length_bytes.
      lia.
    + unfold validSessionName. rewrite substring_0_bytes.
      apply Forall_take, replaceInvalid_valid.
    + apply substring_0_bytes.
  - split; [split; [intros [name Hname]; discriminate | lia]|].
    intros name Hname. discriminate.
Qed.

(** X5. An input of fewer than 32 bytes in all, the dash included, makes
    [generateSessionName] panic whatever its bytes are: replacing never
    lengthens the string. *)
Theorem generateSessionName_few_bytes_panics (platform containerId : string) :
  (String.length platform + String.length containerId < 31)%nat ->
  generateSessionName platform containerId = Panic "slice bounds out of range".
Proof.
  intros Hlen. apply slice_to_out_of_bounds.
  pose proof (replaceInvalid_length (platform ++ "-" ++ containerId) 0) as Hle.
  rewrite !length_append in Hle. cbn [String.length] in Hle.
  unfold ReplaceAllString_invalidSessionName, maxSessionNameLen. lia.
Qed.

(** X6. On an ASCII platform tag and container id of at least 32 bytes in
    all, the dash included, [generateSessionName] returns the first 32
    bytes of the concatenation with each byte outside the valid class
    replaced by an underscore. *)
Theorem generateSessionName_ascii (platform containerId : string) :
  isAscii platform -> isAscii containerId ->
  (31 <= String.length platform + String.length containerId)%nat ->
  exists name,
    generateSessionName platform containerId = Ret name
    /\ list_ascii_of_string name
       = map (fun ch => if validSessionNameChar ch then ch else "_"%char)
           (take 32 (list_ascii_of_string (platform ++ "-" ++ containerId))).
Proof.
  intros Hp Hc Hlen. unfold generateSessionName, maxSessionNameLen.
  rewrite replaceInvalid_ascii by (apply isAscii_concat; assumption).
  eexists. split.
  - apply slice_to_in_bounds. rewrite sanitize_length, !length_append.
    cbn [String.length]. lia.
  - rewrite substring_0_bytes, sanitize_bytes. apply firstn_map.
Qed.

(** X7. The replacement leaves a string of valid characters as it is, so
    replacing twice is replacing once. *)
Theorem ReplaceAllString_idempotent (s : string) :
  (validSessionName s -> ReplaceAllString_invalidSessionName s = s)
  /\ ReplaceAllString_invalidSessionName
       (ReplaceAllString_invalidSessionName s)
     = ReplaceAllString_invalidSessionName s.
Proof.
  assert (Hfix : forall s0, validSessionName s0 ->
            ReplaceAllString_invalidSessionName s0 = s0).
  { intros s0 Hvalid.
    rewrite replaceInvalid_ascii by (apply valid_name_is_ascii, Hvalid).
    unfold validSessionName in Hvalid.
    induction s0 as [|ch s0 IH]; [reflexivity|].
    cbn [list_ascii_of_string] in Hvalid.
    apply Forall_cons in Hvalid as [Hch Hrest].
    cbn [Spec.sanitize]. rewrite Hch, IH by exact Hrest. reflexivity. }
  split; [apply Hfix|].
  apply Hfix, replaceInvalid_valid.
Qed.

(** X8. The outcome for ASCII input is decided by the first 32 bytes of the
    concatenation: two inputs that agree there get the same session name, or
    both panic. *)
Theorem generateSessionName_first_32_bytes
    (platform1 containerId1 platform2 containerId2 : string) :
  isAscii platform1 -> isAscii containerId1 ->
  isAscii platform2 -> isAscii containerId2 ->
  substring 0 32 (platform1 ++ "-" ++ containerId1)
  = substring 0 32 (platform2 ++ "-" ++ containerId2) ->
  generateSessionName platform1 containerId1
  = generateSessionName platform2 containerId2.
Proof.
  intros Hp1 Hc1 Hp2 Hc2 Hhead.
  unfold generateSessionName, maxSessionNameLen.
  rewrite !replaceInvalid_ascii by (apply isAscii_concat; assumption).
  set (s1 := platform1 ++ "-" ++ containerId1) in *.
  set (s2 := platform2 ++ "-" ++ containerId2) in *.
  assert (Hbytes : take 32 (list_ascii_of_string s1)
                   = take 32 (list_ascii_of_string s2))
    by (rewrite <- !substring_0_bytes, Hhead; reflexivity).
  assert (Hlen : Nat.min 32 (String.length s1) = Nat.min 32 (String.length s2))
    by (rewrite !length_bytes, <- !length_take, Hbytes; reflexivity).
  unfold slice_to. rewrite !sanitize_length.
  destruct (Nat.leb_spec 32 (String.length s1)) as [H1|H1],
           (Nat.leb_spec 32 (String.length s2)) as [H2|H2]; try lia.
  - f_equal. apply bytes_inj.
    rewrite !substring_0_bytes, !sanitize_bytes, !firstn_map, Hbytes.
    reflexivity.
  - reflexivity.
Qed.

(** ** One call of the provider *)

Lemma generateSessionName_Ret (platform containerId name : string) :
  generateSessionName platform containerId = Ret name ->
  String.length name = 32%nat /\ validSessionName name.
Proof.
  unfold generateSessionName, maxSessionNameLen, slice_to.
  set (s := ReplaceAllString_invalidSessionName _).
  destruct (Nat.leb_spec 32 (String.length s)) as [Hlen|Hlen]; [|discriminate].
  intros Hname. injection Hname as <-. split.
  - rewrite length_bytes, substring_0_bytes, length_take, <- length_bytes. lia.
  - unfold validSessionName. rewrite substring_0_bytes.
    apply Forall_take, replaceInvalid_valid.
Qed.

Lemma policy_pointer_not_empty (iamPolicy : string) :
  (if (0 <? String.length iamPolicy)%nat then Some iamPolicy else None)
  <> Some "".
Proof. destruct iamPolicy; cbn; congruence. Qed.

Section CallFacts.

Context {RoleArn : Type} {ops : RoleArnOps RoleArn}.

Implicit Types (st : State RoleArn) (ip : string)
  (c : ContainerInfo RoleArn) (e : ContainerCredentials RoleArn).


(** The request of a call, if it sends one. *)
Lemma CredentialsForIP_request_shape ip st :
  stsCalls (snd (CredentialsForIP ip st)) = stsCalls st
  \/ exists c (role : RoleArn) (policy name : string),
       ContainerForIP (container (self st)) ip = (c, None)
       /\ generateSessionName (TypeName (container (self st))) (Id c) = Ret name
       /\ stsCalls (snd (CredentialsForIP ip st))
          = (stsCalls st
             ++ [{| DurationSeconds := Some 3600;
                    Policy := if (0 <? String.length policy)%nat
                              then Some policy else None;
                    Input_RoleArn := Some (RoleArn_String role);
                    RoleSessionName := Some name |}])%list.
Proof.
  run_call. split_call; cbn [snd stsCalls].
  all: try (left; reflexivity).
  all: right;
    match goal with
    | H : (0 <? String.length ?p)%nat = _ |- _ =>
        eexists _, _, p, _; rewrite H
    end.
  all: repeat split; eassumption || reflexivity.
Qed.

(** X10. A call sends at most one request, which it appends to those sent
    before; it reads the clock at most twice and leaves its readings as they
    are. *)
Theorem CredentialsForIP_effects_bounded ip st :
  (stsCalls (snd (CredentialsForIP ip st)) = stsCalls st
   \/ exists input,
        stsCalls (snd (CredentialsForIP ip st))
        = (stsCalls st ++ [input])%list)
  /\ (reads st <= reads (snd (CredentialsForIP ip st)) <= reads st + 2)%nat
  /\ clock (snd (CredentialsForIP ip st)) = clock st.
Proof.
  run_call. split_call; cbn.
  all: split; [first [left; reflexivity | right; eexists; reflexivity]|].
  all: split; [lia | reflexivity].
Qed.


(** X12. Credentials that a call returns without an error are in the cache
    afterwards, under the address asked for, in an entry for the id of the
    container that the address was resolved to. *)
Theorem CredentialsForIP_success_is_cached ip st creds :
  fst (CredentialsForIP ip st) = Ret (creds, None) ->
  exists c e,
    ContainerForIP (container (self st)) ip = (c, None)
    /\ cache_of (snd (CredentialsForIP ip st)) !! ip = Some e
    /\ cc_Credentials e = creds
    /\ Id (cc_ContainerInfo e) = Id c.
Proof.
  unfold cache_of. run_call. split_call; cbn; intros Hret; try discriminate.
  all: injection Hret as <-.
  all: eexists _, _; split; [reflexivity|].
  all: try (split; [apply lookup_insert_eq | split; reflexivity]).
  all: split; [eassumption | split; [reflexivity|]].
  all: match goal with
       | H : negb (String.eqb _ _) = false |- _ =>
           apply negb_false_iff, String.eqb_eq in H; exact H
       end.
Qed.

(** X13. A call never removes an entry from the cache, and adds none but
    for the address asked for. *)
Theorem CredentialsForIP_cache_grows ip st :
  dom (cache_of st) ⊆ dom (cache_of (snd (CredentialsForIP ip st)))
  /\ dom (cache_of (snd (CredentialsForIP ip st)))
     ⊆ {[ ip ]} ∪ dom (cache_of st).
Proof.
  unfold cache_of. run_call. split_call; cbn.
  all: rewrite ?dom_insert_L; set_solver.
Qed.

End CallFacts.

(** ** A provider from its construction on *)

Section RunFacts.

Context {RoleArn : Type} {ops : RoleArnOps RoleArn}.
Context {Session : Type} (sts_New : Session -> STS).

Implicit Types (st : State RoleArn) (ip : string) (ips : list string)
  (c : ContainerInfo RoleArn) (p : CredentialsProvider RoleArn).

Lemma calls_app ips1 ips2 st :
  calls (ips1 ++ ips2) st = calls ips2 (calls ips1 st).
Proof.
  revert st. induction ips1 as [|ip ips1 IH]; intros st; [reflexivity|].
  cbn [calls app]. apply IH.
Qed.

Lemma CredentialsForIP_keeps_config ip st :
  defaultIamRoleArn (self (snd (CredentialsForIP ip st)))
  = defaultIamRoleArn (self st)
  /\ defaultIamPolicy (self (snd (CredentialsForIP ip st)))
     = defaultIamPolicy (self st).
Proof. run_call. split_call; cbn; split; reflexivity. Qed.

(** X14. The first call on a newly constructed provider has nothing to
    reuse: for an address that is resolved to a container whose session name
    can be cut it sends exactly one request, for the container's role, or
    for the default role the provider was constructed with if the container
    declares none. *)
Theorem NewCredentialsProvider_first_call
    (awsSession : Session) (service : ContainerService RoleArn)
    (defaultRole : RoleArn) (defaultPolicy : string)
    (clock : nat -> time.Time) ip c name :
  ContainerForIP service ip = (c, None) ->
  generateSessionName (TypeName service) (Id c) = Ret name ->
  exists input,
    stsCalls (snd (CredentialsForIP ip
                     (start (NewCredentialsProvider sts_New awsSession service
                               defaultRole defaultPolicy) clock)))
    = [input]
    /\ Input_RoleArn input
       = Some (RoleArn_String
                 (if Empty (IamRole c) then defaultRole else IamRole c))
    /\ RoleSessionName input = Some name
    /\ (Policy input = None
        <-> (if Empty (IamRole c) && String.eqb (IamPolicy c) ""
             then defaultPolicy else IamPolicy c) = "").
Proof.
  intros Hres Hname.
  set (st0 := start _ _).
  rewrite (CredentialsForIP_refreshes ip st0 c name);
    [|exact Hres | left; apply lookup_empty | exact Hname].
  eexists. split; [reflexivity|].
  unfold Spec.request, Spec.effectiveRole, Spec.effectivePolicy.
  cbn [Input_RoleArn RoleSessionName Policy self st0 start
       NewCredentialsProvider defaultIamRoleArn defaultIamPolicy].
  split; [reflexivity|]. split; [reflexivity|].
  destruct (String.eqb_spec
              (if Empty (IamRole c) && String.eqb (IamPolicy c) ""
               then defaultPolicy else IamPolicy c) "") as [Heq|Hne].
  - split; [intros _; exact Heq | reflexivity].
  - split; [discriminate | contradiction].
Qed.

(** Requests stay well formed over one call. *)
Lemma CredentialsForIP_keeps_requests_well_formed ip st :
  Forall wellFormedRequest (stsCalls st) ->
  Forall wellFormedRequest (stsCalls (snd (CredentialsForIP ip st))).
Proof.
  intros Hwf.
  destruct (CredentialsForIP_request_shape ip st)
    as [-> | (c & role & policy & name & _ & Hname & ->)]; [exact Hwf|].
  apply Forall_app. split; [exact Hwf|].
  constructor; [|constructor].
  destruct (generateSessionName_Ret _ _ _ Hname) as [Hlen Hvalid].
  unfold wellFormedRequest.
  cbn [DurationSeconds Input_RoleArn Policy RoleSessionName].
  split; [reflexivity|]. split; [eexists; reflexivity|].
  split; [apply policy_pointer_not_empty|].
  exists name. split; [reflexivity | split; assumption].
Qed.

(** X15. Whatever addresses a provider serves, starting with nothing sent:
    every request it has sent asks for 3600 seconds, names a role, carries
    no empty policy document and has a session name of exactly 32 valid
    bytes; and it has sent at most one request per call. *)
Theorem calls_requests_well_formed ips p (clock : nat -> time.Time) :
  Forall wellFormedRequest (stsCalls (calls ips (start p clock)))
  /\ (length (stsCalls (calls ips (start p clock))) <= length ips)%nat.
Proof.
  assert (Hgen : forall st,
    Forall wellFormedRequest (stsCalls st) ->
    Forall wellFormedRequest (stsCalls (calls ips st))
    /\ (length (stsCalls (calls ips st))
        <= length (stsCalls st) + length ips)%nat).
  { induction ips as [|ip ips IH]; intros st Hwf.
    - cbn [calls length]. split; [exact Hwf | lia].
    - cbn [calls length].
      destruct (IH (snd (CredentialsForIP ip st))
                  (CredentialsForIP_keeps_requests_well_formed ip st Hwf))
        as [Hwf' Hlen].
      split; [exact Hwf'|].
      destruct (CredentialsForIP_request_shape ip st)
        as [Hsame | (? & ? & ? & ? & _ & _ & Hmore)].
      + rewrite Hsame in Hlen. lia.
      + rewrite Hmore, length_app in Hlen. cbn [length] in Hlen. lia. }
  destruct (Hgen (start p clock)) as [Hwf Hlen]; [constructor|].
  split; [exact Hwf | exact Hlen].
Qed.

Lemma CredentialsForIP_keeps_cache_unnamed ip st :
  cache_unnamed st ->
  cache_unnamed (snd (CredentialsForIP ip st))
  /\ forall creds err,
       fst (CredentialsForIP ip st) = Ret (creds, err) ->
       Credentials_RoleArn creds = RoleArn_zero.
Proof.
  unfold cache_unnamed, cache_of. intros Hinv.
  run_call. split_call; cbn.
  all: split;
    [|intros creds err Hret;
      first [discriminate
            |injection Hret as <- <-;
             first [reflexivity | eapply Hinv; eassumption]]].
  all: try exact Hinv.
  all: intros ip' e'; destruct (decide (ip = ip')) as [<-|Hne];
    [rewrite lookup_insert_eq; intros He; injection He as <-; reflexivity
    |rewrite lookup_insert_ne by exact Hne; apply Hinv].
Qed.

(** X16. A provider, from its construction on and whatever addresses it has
    served, holds and hands out only credentials whose [RoleArn] is the zero
    value: the role that was assumed is never recorded in them.  It keeps
    the collaborators and defaults it was constructed with, and caches
    entries only for addresses it was asked for. *)
Theorem calls_from_new_provider
    (awsSession : Session) (service : ContainerService RoleArn)
    (defaultRole : RoleArn) (defaultPolicy : string)
    (clock : nat -> time.Time) ips :
  let st := calls ips (start (NewCredentialsProvider sts_New awsSession
                                service defaultRole defaultPolicy) clock) in
  (forall ip e,
     cache_of st !! ip = Some e ->
     Credentials_RoleArn (cc_Credentials e) = RoleArn_zero /\ ip ∈ ips)
  /\ (forall ip creds err,
        fst (CredentialsForIP ip st) = Ret (creds, err) ->
        Credentials_RoleArn creds = RoleArn_zero)
  /\ container (self st) = service
  /\ awsSts (self st) = sts_New awsSession
  /\ defaultIamRoleArn (self st) = defaultRole
  /\ defaultIamPolicy (self st) = defaultPolicy.
Proof.
  set (st0 := start _ _).
  assert (Hgen : forall ips0 st,
    cache_unnamed (calls ips0 st)
    /\ (forall ip, ip ∈ dom (cache_of (calls ips0 st)) -> ip ∈ ips0)
    /\ container (self (calls ips0 st)) = service
    /\ awsSts (self (calls ips0 st)) = sts_New awsSession
    /\ defaultIamRoleArn (self (calls ips0 st)) = defaultRole
    /\ defaultIamPolicy (self (calls ips0 st)) = defaultPolicy
    ->
    forall ip,
    cache_unnamed (calls (ips0 ++ [ip]) st)
    /\ (forall ip', ip' ∈ dom (cache_of (calls (ips0 ++ [ip]) st)) ->
                    ip' ∈ (ips0 ++ [ip])%list)
    /\ container (self (calls (ips0 ++ [ip]) st)) = service
    /\ awsSts (self (calls (ips0 ++ [ip]) st)) = sts_New awsSession
    /\ defaultIamRoleArn (self (calls (ips0 ++ [ip]) st)) = defaultRole
    /\ defaultIamPolicy (self (calls (ips0 ++ [ip]) st)) = defaultPolicy).
  { intros ips0 st (Hun & Hdom & Hc & Hs & Hr & Hp) ip.
    rewrite calls_app. cbn [calls]. set (st1 := calls ips0 st) in *.
    destruct (CredentialsForIP_keeps_handles ip st1) as (Hc' & Hs' & _).
    destruct (CredentialsForIP_keeps_config ip st1) as (Hr' & Hp').
    split; [apply CredentialsForIP_keeps_cache_unnamed, Hun|].
    split; [|rewrite Hc', Hs', Hr', Hp'; repeat split; assumption].
    intros ip' Hin.
    assert (Hin' : ip' ∈ ({[ ip ]} ∪ dom (cache_of st1) : gset string)).
    { revert Hin. unfold cache_of. clear. run_call. split_call; cbn.
      all: rewrite ?dom_insert_L; set_solver. }
    apply elem_of_app. apply elem_of_union in Hin' as [Hin'|Hin'].
    - right. apply elem_of_singleton in Hin'. subst. apply list_elem_of_here.
    - left. apply Hdom, Hin'. }
  assert (Hall : cache_unnamed (calls ips st0)
    /\ (forall ip, ip ∈ dom (cache_of (calls ips st0)) -> ip ∈ ips)
    /\ container (self (calls ips st0)) = service
    /\ awsSts (self (calls ips st0)) = sts_New awsSession
    /\ defaultIamRoleArn (self (calls ips st0)) = defaultRole
    /\ defaultIamPolicy (self (calls ips st0)) = defaultPolicy).
  { induction ips as [|ip ips IH] using rev_ind.
    - cbn [calls]. split.
      + intros ip e He. unfold cache_of in He. cbn in He.
        rewrite lookup_empty in He. discriminate.
      + split; [|repeat split].
        intros ip Hin. unfold cache_of in Hin. cbn in Hin. set_solver.
    - apply Hgen, IH. }
  destruct Hall as (Hun & Hdom & Hc & Hs & Hr & Hp).
  cbv zeta. split; [|split; [|repeat split; assumption]].
  - intros ip e He. split; [exact (Hun ip e He)|].
    apply Hdom, elem_of_dom. eexists. exact He.
  - intros ip creds err Hret.
    exact (proj2 (CredentialsForIP_keeps_cache_unnamed ip _ Hun) creds err Hret).
Qed.

End RunFacts.

(** ** Two calls in a row *)

Section RepeatFacts.

Context {RoleArn : Type} {ops : RoleArnOps RoleArn}.

Implicit Types (st : State RoleArn) (ip : string)
  (c : ContainerInfo RoleArn) (e : ContainerCredentials RoleArn).



End RepeatFacts.

(** ** Instances of the further properties *)

Module MoreRuns.

Import Sample.

Lemma ExpiredAt_monotone_witness :
  ExpiredAt (creds now) (now + hour) = true.
Proof.
  apply (proj1 (ExpiredAt_monotone (creds now) (now + time.Second)
                  (now + hour) ltac:(discriminate))).
  reflexivity.
Defined.

Lemma ExpiresIn_expired_longer_ago_witness :
  fst (ExpiresIn (creds (now - hour)) (5 * time.Minute)
         (granting (info roleA "") ∅))
  = Ret true.
Proof.
  destruct (ExpiresIn_expired_longer_ago (creds (now - hour))
              (5 * time.Minute) (granting (info roleA "") ∅))
    as (_ & [_ Hback] & _); [split; [reflexivity | discriminate]|].
  apply Hback. reflexivity.
Defined.

Lemma ExpiresIn_implies_ExpiredNow_witness :
  fst (ExpiredNow (creds (now - hour)) (granting (info roleA "") ∅))
  = Ret true.
Proof.
  destruct (ExpiresIn_implies_ExpiredNow (creds (now - hour))
              (5 * time.Minute) (granting (info roleA "") ∅))
    as [_ Himp]; [split; discriminate|].
  apply Himp. reflexivity.
Defined.

Lemma generateSessionName_returns_iff_witness :
  String.length name = 32%nat /\ validSessionName name.
Proof.
  destruct (proj2 (generateSessionName_returns_iff "docker" containerId)
              name eq_refl) as (Hlen & Hvalid & _).
  split; [exact Hlen | exact Hvalid].
Defined.

Lemma generateSessionName_few_bytes_panics_witness :
  generateSessionName "lxc" "0123456789abcdef" = Panic "slice bounds out of range".
Proof.
  apply generateSessionName_few_bytes_panics. vm_compute. lia.
Defined.

Lemma isAscii_docker : isAscii "docker".
Proof. repeat constructor. Qed.

Lemma isAscii_containerId : isAscii containerId.
Proof. repeat constructor. Qed.

Lemma generateSessionName_ascii_witness :
  exists n,
    generateSessionName "docker" containerId = Ret n
    /\ list_ascii_of_string n
       = map (fun ch => if validSessionNameChar ch then ch else "_"%char)
           (take 32 (list_ascii_of_string ("docker" ++ "-" ++ containerId))).
Proof.
  apply generateSessionName_ascii;
    [exact isAscii_docker | exact isAscii_containerId | vm_compute; lia].
Defined.

Lemma ReplaceAllString_idempotent_witness :
  ReplaceAllString_invalidSessionName name = name.
Proof.
  apply (proj1 (ReplaceAllString_idempotent name)).
  unfold validSessionName. repeat constructor.
Defined.

Lemma generateSessionName_first_32_bytes_witness :
  generateSessionName "docker" containerId
  = generateSessionName "docker" "4f2a9c07d1e85b36a0c4e7f19ffffffffffffffff".
Proof.
  apply generateSessionName_first_32_bytes;
    [exact isAscii_docker | exact isAscii_containerId | exact isAscii_docker
    | repeat constructor | reflexivity].
Defined.



Lemma CredentialsForIP_success_is_cached_witness :
  exists c e,
    ContainerForIP (container (self (granting (info roleA "") ∅))) ip
    = (c, None)
    /\ cache_of (snd (CredentialsForIP ip (granting (info roleA "") ∅))) !! ip
       = Some e
    /\ cc_Credentials e
       = {| AccessKey := "AKIA"; Expiration := now + hour; GeneratedAt := now;
            Credentials_RoleArn := ""; SecretKey := "secret";
            Token := "token" |}
    /\ Id (cc_ContainerInfo e) = Id c.
Proof.
  apply (CredentialsForIP_success_is_cached ip (granting (info roleA "") ∅)).
  reflexivity.
Defined.

Lemma NewCredentialsProvider_first_call_witness :
  exists input,
    stsCalls
      (snd (CredentialsForIP ip
              (start (NewCredentialsProvider (fun _ : unit => stsDeny) tt
                        (service (info "" "")) roleDefault policyDefault)
                 (fun _ => now))))
    = [input]
    /\ Input_RoleArn input = Some roleDefault
    /\ RoleSessionName input = Some name.
Proof.
  destruct (NewCredentialsProvider_first_call (fun _ : unit => stsDeny) tt
              (service (info "" "")) roleDefault policyDefault
              (fun _ => now) ip (info "" "") name eq_refl eq_refl)
    as (input & Hcalls & Hrole & Hname & _).
  exists input. split; [exact Hcalls | split; [exact Hrole | exact Hname]].
Defined.

Lemma calls_from_new_provider_witness :
  Credentials_RoleArn
    (cc_Credentials
       {| cc_ContainerInfo := info roleA "";
          cc_Credentials :=
            {| AccessKey := "AKIA"; Expiration := now + hour;
               GeneratedAt := now; Credentials_RoleArn := "";
               SecretKey := "secret"; Token := "token" |} |})
  = ""
  /\ ip ∈ [ip; "10.0.0.1"; ip].
Proof.
  refine (proj1 (calls_from_new_provider
                   (fun _ : unit => stsGrant (now + hour)) tt
                   (service (info roleA "")) roleDefault policyDefault
                   (fun _ => now) [ip; "10.0.0.1"; ip]) ip
            {| cc_ContainerInfo := info roleA "";
               cc_Credentials :=
                 {| AccessKey := "AKIA"; Expiration := now + hour;
                    GeneratedAt := now; Credentials_RoleArn := "";
                    SecretKey := "secret"; Token := "token" |} |} _).
  vm_compute. reflexivity.
Defined.


End MoreRuns.
